(** * Tephra documentation build: the m.css configuration module

    [build/mcssconf.py] is a Python module made of six top-level assignments
    whose right-hand sides are literal displays (strings, lists, tuples).
    The module is embedded as the list of its statements; running it builds
    the module namespace that the documentation generator reads. *)

From Stdlib Require Import String Ascii List Bool.
From stdpp Require Import base gmap strings list.

Local Open Scope string_scope.

(** ** Python values and statements, as far as the module uses them *)

Module Py.

(** The only values the module builds: [str], [list] and [tuple] objects. *)
#[warnings="-register-all"]
Inductive value : Type :=
  | VStr (s : string)
  | VList (items : list value)
  | VTuple (items : list value).

(** [len(v)]. *)
Definition len (v : value) : nat :=
  match v with
  | VStr s => String.length s
  | VList items => length items
  | VTuple items => length items
  end.

(** The elements of a sequence object, in iteration order; a [str] is not
    iterated element-wise here, so it yields [None]. *)
Definition items_of (v : value) : option (list value) :=
  match v with
  | VStr _ => None
  | VList items => Some items
  | VTuple items => Some items
  end.

(** [v[i]] for a list or tuple and an index in range; [None] stands for the
    [IndexError] / [TypeError] cases. *)
Definition subscript (v : value) (i : nat) : option value :=
  match items_of v with
  | Some items => items !! i
  | None => None
  end.

Definition is_str (v : value) : bool :=
  match v with VStr _ => true | _ => false end.

(** [isinstance(v, list) and all(isinstance(x, str) for x in v)]. *)
Definition is_str_list (v : value) : bool :=
  match v with
  | VList items => forallb is_str items
  | _ => false
  end.

(** A top-level statement of the module: [target = rhs], where [rhs] is a
    literal display and so denotes its value directly. *)
Inductive stmt : Type :=
  | Assign (target : string) (rhs : value).

Definition target_of (s : stmt) : string :=
  match s with Assign x _ => x end.

(** The module namespace (the module's [__dict__]). *)
Abbreviation namespace := (gmap string value).

(** Executing an assignment binds (or re-binds) the target name. *)
Definition exec_stmt (ns : namespace) (s : stmt) : namespace :=
  match s with
  | Assign x v => <[x := v]> ns
  end.

(** Statements run top to bottom. *)
Definition exec (body : list stmt) (ns : namespace) : namespace :=
  foldl exec_stmt ns body.

End Py.

Import Py.

(** ** The shapes the documentation generator expects of the settings *)

Module Schema.

(** Apply a check to every element of a [list] object. *)
Definition all_entries (p : value -> bool) (v : value) : bool :=
  match v with
  | VList items => forallb p items
  | _ => false
  end.

(** A navigation entry in its long form: [(label, destination, sub_links)],
    the sub-links being entries of the same form. *)
Fixpoint is_link3 (v : value) : bool :=
  match v with
  | VTuple [VStr _; VStr _; VList subs] => forallb is_link3 subs
  | _ => false
  end.

(** A navigation entry in either form: [(label, destination, sub_links)]
    or [(markup, sub_links)], where the markup is a complete anchor that
    carries its own destination. *)
Fixpoint is_link (v : value) : bool :=
  match v with
  | VTuple [VStr _; VStr _; VList subs] => forallb is_link subs
  | VTuple [VStr _; VList subs] => forallb is_link subs
  | _ => false
  end.

(** The first component of an entry, when it is a string. *)
Definition label (e : value) : option string :=
  match e with
  | VTuple (VStr s :: _) => Some s
  | _ => None
  end.

(** The final component of an entry, when it is a list. *)
Definition sub_links (e : value) : option (list value) :=
  match e with
  | VTuple items =>
      match last items with
      | Some (VList subs) => Some subs
      | _ => None
      end
  | _ => None
  end.

Definition in_range (lo hi : nat) (c : ascii) : bool :=
  Nat.leb lo (nat_of_ascii c) && Nat.leb (nat_of_ascii c) hi.

Definition is_digit (c : ascii) : bool := in_range 48 57 c.

Definition is_alpha (c : ascii) : bool :=
  in_range 65 90 c || in_range 97 122 c.

Definition is_hex_digit (c : ascii) : bool :=
  is_digit c || in_range 65 70 c || in_range 97 102 c.

(** The whole string is [#] followed by exactly six hexadecimal digits. *)
Definition is_hex_color (s : string) : bool :=
  match list_ascii_of_string s with
  | "#"%char :: digits =>
      Nat.eqb (length digits) 6 && forallb is_hex_digit digits
  | _ => false
  end.

(** Characters allowed in a URI scheme after its first letter. *)
Definition is_scheme_char (c : ascii) : bool :=
  is_alpha c || is_digit c
  || Ascii.eqb c "+" || Ascii.eqb c "-" || Ascii.eqb c ".".

(** An absolute URL: a scheme, then [://], then a non-empty remainder. *)
Definition is_absolute_url (s : string) : bool :=
  match String.index 0 "://" s with
  | Some n =>
      match list_ascii_of_string (String.substring 0 n s) with
      | c :: cs =>
          is_alpha c && forallb is_scheme_char cs
          && Nat.ltb (n + 3) (String.length s)
      | [] => false
      end
  | None => false
  end.

(** The string contains the separator [://] that follows a scheme. *)
Definition has_scheme_separator (s : string) : bool :=
  match String.index 0 "://" s with
  | Some _ => true
  | None => false
  end.

(** A relative path: non-empty, not rooted at [/], and without a scheme. *)
Definition is_relative_path (s : string) : bool :=
  match s with
  | EmptyString => false
  | String c _ => negb (Ascii.eqb c "/") && negb (has_scheme_separator s)
  end.

Definition is_stylesheet_ref (v : value) : bool :=
  match v with
  | VStr s => is_absolute_url s || is_relative_path s
  | _ => false
  end.

End Schema.

Import Schema.

(** ** The module [build/mcssconf.py] *)

Module Mcssconf.

(** The double-quote character, which appears inside one label. *)
Definition dquote : string := String "034"%char EmptyString.

Definition DOXYFILE : value := VStr "Doxyfile-mcss".

Definition MAIN_PROJECT_URL : value := VStr "https://github.com/Dolkar/Tephra".

Definition LINKS_NAVBAR1 : value :=
  VList [
    VTuple [VStr "User Guide"; VStr "user-guide"; VList []];
    VTuple [VStr "Examples"; VStr "examples"; VList []]
  ].

(** The label of the second entry is a complete anchor element; in the
    source both of its double quotes (one written with a backslash, one
    without) denote the same character. *)
Definition discussions_markup : string :=
  "<a href=" +:+ dquote +:+ "https://github.com/Dolkar/Tephra/discussions"
  +:+ dquote +:+ ">Discussions</a>".

Definition LINKS_NAVBAR2 : value :=
  VList [
    VTuple [VStr "Changelog"; VStr "changelog"; VList []];
    VTuple [VStr discussions_markup; VList []];
    VTuple [VStr "API"; VStr "annotated"; VList []]
  ].

Definition STYLESHEETS : value :=
  VList [
    VStr "https://fonts.googleapis.com/css?family=Source+Sans+Pro:400,400i,600,600i%7CSource+Code+Pro:400,400i,600";
    VStr "./mcss/css/m-dark-tephra.css";
    VStr "./mcss/css/m-documentation.css";
    VStr "./mcss/css/m-theme-dark-tephra.css";
    VStr "./mcss/css/m-grid.css";
    VStr "./mcss/css/m-components.css";
    VStr "./mcss/css/m-layout.css";
    VStr "./mcss/css/pygments-dark.css";
    VStr "./mcss/css/pygments-console.css"
  ].

Definition THEME_COLOR : value := VStr "#2c1b15".

(** The statements of the module, in source order. *)
Definition body : list stmt :=
  [ Assign "DOXYFILE" DOXYFILE;
    Assign "MAIN_PROJECT_URL" MAIN_PROJECT_URL;
    Assign "LINKS_NAVBAR1" LINKS_NAVBAR1;
    Assign "LINKS_NAVBAR2" LINKS_NAVBAR2;
    Assign "STYLESHEETS" STYLESHEETS;
    Assign "THEME_COLOR" THEME_COLOR ].

(** The namespace the documentation generator sees after importing the
    module. *)
Definition config : namespace := exec body ∅.

End Mcssconf.

Import Mcssconf.

(** ** Checks that relate several settings to one another *)

Module Consistency.

Definition str_of (v : value) : option string :=
  match v with
  | VStr s => Some s
  | _ => None
  end.

(** The destination identifier of an entry in long form; an entry made of
    markup has none. *)
Definition destination (e : value) : option string :=
  match e with
  | VTuple [VStr _; VStr d; _] => Some d
  | _ => None
  end.

Definition entries_of (v : value) : list value :=
  match v with
  | VList items => items
  | _ => []
  end.

(** The entries of the two navigation bars, left bar first. *)
Definition navbar_entries : list value :=
  entries_of LINKS_NAVBAR1 ++ entries_of LINKS_NAVBAR2.

(** [s.endswith(suffix)]. *)
Definition ends_with (suffix s : string) : bool :=
  Nat.leb (String.length suffix) (String.length s)
  && String.eqb
       (String.substring (String.length s - String.length suffix)
          (String.length suffix) s)
       suffix.

(** A stylesheet shipped with the documentation theme. *)
Definition is_local_css (v : value) : bool :=
  match v with
  | VStr s => String.prefix "./mcss/css/" s && ends_with ".css" s
  | _ => false
  end.

Definition is_remote (v : value) : bool :=
  match v with
  | VStr s => is_absolute_url s
  | _ => false
  end.

(** An anchor element with the given target and text. *)
Definition anchor (href text : string) : string :=
  "<a href=" +:+ dquote +:+ href +:+ dquote +:+ ">" +:+ text +:+ "</a>".

End Consistency.

Import Consistency.


(** ** Running a module body *)

Section Exec.

Implicit Types (body : list stmt) (ns : namespace) (x : string) (v : value).

Lemma exec_nil ns : exec [] ns = ns.
Proof. reflexivity. Qed.

Lemma exec_cons s body ns : exec (s :: body) ns = exec body (exec_stmt ns s).
Proof. reflexivity. Qed.

(** A name that no statement assigns keeps whatever binding it had. *)
Lemma exec_lookup_fresh body ns x :
  x ∉ target_of <$> body -> exec body ns !! x = ns !! x.
Proof.
  revert ns. induction body as [|[y w] body IH]; intros ns Hx.
  - by rewrite exec_nil.
  - rewrite fmap_cons in Hx. apply not_elem_of_cons in Hx as [Hne Hx].
    rewrite exec_cons, IH by done. simpl.
    by apply lookup_insert_ne.
Qed.

(** When every name is assigned at most once, a binding made by the [i]-th
    statement is still in place after any longer prefix of the body. *)
Lemma exec_keeps_binding body :
  NoDup (target_of <$> body) ->
  forall i k x v ns,
    body !! i = Some (Assign x v) -> i < k ->
    exec (take k body) ns !! x = Some v.
Proof.
  induction body as [|s body IH]; intros Hnd i k x v ns Hi Hk.
  - by rewrite lookup_nil in Hi.
  - rewrite fmap_cons in Hnd. apply NoDup_cons in Hnd as [Hs Hnd].
    destruct k as [|k]; [lia|]. rewrite firstn_cons, exec_cons.
    destruct i as [|i]; simpl in Hi.
    + injection Hi as ->. simpl in *.
      rewrite exec_lookup_fresh; [apply lookup_insert_eq|].
      rewrite fmap_take. intros Hin. apply Hs.
      by eapply subseteq_take.
    + apply (IH Hnd i); [done | lia].
Qed.

End Exec.

(** The six assignments of the module have six different targets. *)
Lemma body_targets_NoDup : NoDup (target_of <$> body).
Proof. apply (bool_decide_unpack _). by vm_compute. Qed.

(** ** The navigation lists *)

(** C5: [LINKS_NAVBAR1] has exactly two entries; the first is labelled
    "User Guide" and the second "Examples". *)
Theorem navbar1_two_entries :
  len LINKS_NAVBAR1 = 2
  /\ (subscript LINKS_NAVBAR1 0 ≫= label) = Some "User Guide"
  /\ (subscript LINKS_NAVBAR1 1 ≫= label) = Some "Examples".
Proof. repeat split. Qed.

(** C2, as the code has it: [LINKS_NAVBAR2] has exactly three entries
    (Changelog, the Discussions anchor, API). *)
Theorem navbar2_three_entries :
  len LINKS_NAVBAR2 = 3
  /\ (subscript LINKS_NAVBAR2 0 ≫= label) = Some "Changelog"
  /\ (subscript LINKS_NAVBAR2 1 ≫= label) = Some discussions_markup
  /\ (subscript LINKS_NAVBAR2 2 ≫= label) = Some "API".
Proof. repeat split. Qed.

(** C2, as stated (two entries), fails: the list has a third entry. *)
Lemma navbar2_not_two_entries :
  len LINKS_NAVBAR2 <> 2
  /\ subscript LINKS_NAVBAR2 2
     = Some (VTuple [VStr "API"; VStr "annotated"; VList []]).
Proof. split; [discriminate | reflexivity]. Qed.

(** C1, as stated (every entry of both lists has three components),
    fails at the second entry of [LINKS_NAVBAR2], which has two. *)
Lemma navbar2_discussions_entry_is_pair :
  subscript LINKS_NAVBAR2 1
    = Some (VTuple [VStr discussions_markup; VList []])
  /\ len (VTuple [VStr discussions_markup; VList []]) = 2
  /\ is_link3 (VTuple [VStr discussions_markup; VList []]) = false
  /\ ~ (all_entries is_link3 LINKS_NAVBAR1 = true
        /\ all_entries is_link3 LINKS_NAVBAR2 = true).
Proof.
  repeat split. intros [_ H]. vm_compute in H. discriminate H.
Qed.

(** C1, as the code has it: every entry of both navigation lists is a
    tuple of exactly three components (label, destination, nested list of
    entries), except the second entry of [LINKS_NAVBAR2], which is a tuple
    of exactly two components: an anchor element used as label, and a
    nested list. *)
Theorem navbar_entry_shapes (nav : value) (i : nat) (e : value) :
  nav ∈ [LINKS_NAVBAR1; LINKS_NAVBAR2] ->
  subscript nav i = Some e ->
  (is_link3 e = true /\ len e = 3)
  \/ (nav = LINKS_NAVBAR2 /\ i = 1
      /\ e = VTuple [VStr discussions_markup; VList []] /\ len e = 2).
Proof.
  intros Hnav He.
  apply elem_of_cons in Hnav as [-> | Hnav].
  - destruct i as [|[|i]]; simpl in He; [| |discriminate He];
      injection He as <-; left; split; reflexivity.
  - apply list_elem_of_singleton in Hnav as ->.
    destruct i as [|[|[|i]]]; simpl in He; [| | |discriminate He];
      injection He as <-.
    + left; split; reflexivity.
    + right; repeat split.
    + left; split; reflexivity.
Qed.

Lemma navbar_entry_shapes_witness :
  (is_link3 (VTuple [VStr "Examples"; VStr "examples"; VList []]) = true
   /\ len (VTuple [VStr "Examples"; VStr "examples"; VList []]) = 3)
  \/ (LINKS_NAVBAR1 = LINKS_NAVBAR2 /\ 1 = 1
      /\ VTuple [VStr "Examples"; VStr "examples"; VList []]
         = VTuple [VStr discussions_markup; VList []]
      /\ len (VTuple [VStr "Examples"; VStr "examples"; VList []]) = 2).
Proof.
  apply (navbar_entry_shapes LINKS_NAVBAR1 1).
  - apply list_elem_of_here.
  - reflexivity.
Defined.

(** C10: in both navigation lists, the final component of every entry is
    the empty list. *)
Theorem navbar_entries_no_sub_links (nav : value) (items : list value)
    (e : value) :
  nav ∈ [LINKS_NAVBAR1; LINKS_NAVBAR2] ->
  items_of nav = Some items ->
  e ∈ items ->
  sub_links e = Some [].
Proof.
  intros Hnav Hitems He.
  apply elem_of_cons in Hnav as [-> | Hnav];
    [| apply list_elem_of_singleton in Hnav as ->];
    injection Hitems as <-;
    repeat (apply elem_of_cons in He as [-> | He]; [reflexivity|]);
    by apply elem_of_nil in He.
Qed.

Lemma navbar_entries_no_sub_links_witness :
  sub_links (VTuple [VStr discussions_markup; VList []]) = Some [].
Proof.
  apply (navbar_entries_no_sub_links LINKS_NAVBAR2
           [VTuple [VStr "Changelog"; VStr "changelog"; VList []];
            VTuple [VStr discussions_markup; VList []];
            VTuple [VStr "API"; VStr "annotated"; VList []]]).
  - apply list_elem_of_further, list_elem_of_here.
  - reflexivity.
  - apply list_elem_of_further, list_elem_of_here.
Defined.

(** ** The stylesheet list and the theme colour *)

(** C6: [STYLESHEETS] has exactly nine entries, and the list read from the
    module namespace holds them in the order of the source. *)
Theorem stylesheets_nine_in_order :
  len STYLESHEETS = 9
  /\ config !! "STYLESHEETS" = Some STYLESHEETS
  /\ items_of STYLESHEETS = Some (VStr <$>
       [ "https://fonts.googleapis.com/css?family=Source+Sans+Pro:400,400i,600,600i%7CSource+Code+Pro:400,400i,600";
         "./mcss/css/m-dark-tephra.css";
         "./mcss/css/m-documentation.css";
         "./mcss/css/m-theme-dark-tephra.css";
         "./mcss/css/m-grid.css";
         "./mcss/css/m-components.css";
         "./mcss/css/m-layout.css";
         "./mcss/css/pygments-dark.css";
         "./mcss/css/pygments-console.css" ]).
Proof. repeat split. Qed.

(** The stylesheet check is not vacuous: a rooted path, a bare scheme and
    the empty string are all rejected. *)
Example is_stylesheet_ref_rejects :
  is_stylesheet_ref (VStr "/usr/share/doc/style.css") = false
  /\ is_stylesheet_ref (VStr "https://") = false
  /\ is_stylesheet_ref (VStr "") = false
  /\ is_stylesheet_ref (VList []) = false.
Proof. repeat split. Qed.

(** C7: every entry of [STYLESHEETS] is a string that is either an absolute
    URL or a relative path. *)
Theorem stylesheets_url_or_relative (items : list value) (v : value) :
  items_of STYLESHEETS = Some items ->
  v ∈ items ->
  exists s, v = VStr s
            /\ (is_absolute_url s = true \/ is_relative_path s = true).
Proof.
  intros Hitems Hv. injection Hitems as <-.
  apply elem_of_cons in Hv as [-> | Hv].
  { eexists; split; [reflexivity | left; reflexivity]. }
  repeat (apply elem_of_cons in Hv as [-> | Hv];
          [eexists; split; [reflexivity | right; reflexivity]|]).
  by apply elem_of_nil in Hv.
Qed.

Lemma stylesheets_url_or_relative_witness :
  exists s, VStr "./mcss/css/m-grid.css" = VStr s
            /\ (is_absolute_url s = true \/ is_relative_path s = true).
Proof.
  apply (stylesheets_url_or_relative
           (VStr <$>
              [ "https://fonts.googleapis.com/css?family=Source+Sans+Pro:400,400i,600,600i%7CSource+Code+Pro:400,400i,600";
                "./mcss/css/m-dark-tephra.css";
                "./mcss/css/m-documentation.css";
                "./mcss/css/m-theme-dark-tephra.css";
                "./mcss/css/m-grid.css";
                "./mcss/css/m-components.css";
                "./mcss/css/m-layout.css";
                "./mcss/css/pygments-dark.css";
                "./mcss/css/pygments-console.css" ])).
  - reflexivity.
  - do 4 apply list_elem_of_further. apply list_elem_of_here.
Defined.

(** C4: [THEME_COLOR] is the string [#2c1b15], which is [#] followed by six
    hexadecimal digits. *)
Theorem theme_color_value :
  THEME_COLOR = VStr "#2c1b15"
  /\ config !! "THEME_COLOR" = Some (VStr "#2c1b15")
  /\ is_hex_color "#2c1b15" = true.
Proof. repeat split. Qed.

(** ** The record as a whole *)

(** C3: the module namespace has exactly six names; three are bound to
    strings, two to lists of navigation tuples that end in a nested list of
    sub-links (all of the three-component form in the primary list, of
    either form in the secondary list), and one to a list of strings. *)
Theorem config_six_typed_fields :
  dom config
    = ({[ "DOXYFILE"; "MAIN_PROJECT_URL"; "LINKS_NAVBAR1"; "LINKS_NAVBAR2";
          "STYLESHEETS"; "THEME_COLOR" ]} : gset string)
  /\ size config = 6
  /\ is_str <$> config !! "DOXYFILE" = Some true
  /\ is_str <$> config !! "MAIN_PROJECT_URL" = Some true
  /\ all_entries is_link3 <$> config !! "LINKS_NAVBAR1" = Some true
  /\ all_entries is_link <$> config !! "LINKS_NAVBAR2" = Some true
  /\ is_str_list <$> config !! "STYLESHEETS" = Some true
  /\ is_str <$> config !! "THEME_COLOR" = Some true.
Proof.
  split; [| repeat split].
  unfold config, body, exec. simpl. unfold exec_stmt.
  rewrite !dom_insert_L, dom_empty_L. set_solver.
Qed.

(** C9: no statement of the module re-binds a field.  Once the [i]-th
    statement has bound [x] to [v], every later point of the module's
    execution, and the finished namespace, still read [v] at [x]. *)
Theorem fields_never_rebound (i k : nat) (x : string) (v : value) :
  body !! i = Some (Assign x v) ->
  i < k ->
  exec (take k body) ∅ !! x = Some v /\ config !! x = Some v.
Proof.
  intros Hi Hk. split.
  - by apply (exec_keeps_binding body body_targets_NoDup i).
  - unfold config. rewrite <- (firstn_all body).
    apply (exec_keeps_binding body body_targets_NoDup i); [done|].
    by apply lookup_lt_Some in Hi.
Qed.

Lemma fields_never_rebound_witness :
  exec (take 5 body) ∅ !! "LINKS_NAVBAR2" = Some LINKS_NAVBAR2
  /\ config !! "LINKS_NAVBAR2" = Some LINKS_NAVBAR2.
Proof.
  apply (fields_never_rebound 3 5); [reflexivity | lia].
Defined.

(** ** Loading the module over an existing namespace *)

Section Load.

Implicit Types (body : list stmt) (m ns : namespace) (x : string) (v : value).

(** Bindings that were there before the body runs sit underneath the ones
    the body makes. *)
Lemma exec_union body m ns : exec body (m ∪ ns) = exec body m ∪ ns.
Proof.
  revert m. induction body as [|[y w] body IH]; intros m.
  - by rewrite !exec_nil.
  - rewrite !exec_cons. simpl. by rewrite insert_union_l, IH.
Qed.

Lemma exec_from_empty body ns : exec body ns = exec body ∅ ∪ ns.
Proof. by rewrite <- exec_union, (left_id_L ∅ (∪)). Qed.


(** Statements with different targets can run in any order. *)
Lemma exec_permutation body body' :
  body ≡ₚ body' ->
  NoDup (target_of <$> body) ->
  forall ns, exec body ns = exec body' ns.
Proof.
  induction 1 as [| s l l' Hperm IH | [x v] [y w] l | l l' l'' H1 IH1 H2 IH2];
    intros Hnd ns.
  - reflexivity.
  - rewrite fmap_cons in Hnd. apply NoDup_cons in Hnd as [_ Hnd].
    rewrite !exec_cons. by apply IH.
  - rewrite !fmap_cons in Hnd. apply NoDup_cons in Hnd as [Hne _].
    rewrite !exec_cons. simpl in *. f_equal.
    apply insert_insert_ne. intros ->. apply Hne, list_elem_of_here.
  - rewrite IH1 by done. apply IH2.
    by rewrite <- H1.
Qed.

End Load.

(** X1: run over any namespace, the module binds its six names to the
    declared values, whatever they were bound to before, and leaves every
    other name as it was. *)
Theorem module_load_overrides (ns : namespace) (x : string) :
  exec body ns = config ∪ ns
  /\ exec body ns !! x
     = match config !! x with
       | Some v => Some v
       | None => ns !! x
       end.
Proof.
  assert (exec body ns = config ∪ ns) as Heq by apply exec_from_empty.
  split; [done|]. rewrite Heq. rewrite lookup_union.
  destruct (config !! x), (ns !! x); reflexivity.
Qed.

(** X2: running the module a second time changes nothing. *)
Theorem module_reload_idempotent (ns : namespace) :
  exec body (exec body ns) = exec body ns.
Proof.
  rewrite (exec_from_empty body (exec body ns)), (exec_from_empty body ns).
  by rewrite (assoc_L (∪)), (idemp_L (∪)).
Qed.

(** X3: the six assignments do not depend on one another: running them in
    any other order builds the same namespace. *)
Theorem body_order_irrelevant (body' : list stmt) (ns : namespace) :
  body ≡ₚ body' ->
  exec body' ns = exec body ns.
Proof.
  intros Hperm. symmetry.
  by apply exec_permutation, body_targets_NoDup.
Qed.

Lemma body_order_irrelevant_witness :
  exec (reverse body) ∅ = exec body ∅.
Proof.
  apply (body_order_irrelevant (reverse body) ∅).
  symmetry. apply reverse_Permutation.
Defined.


(** ** Consistency of the values *)

(** X5: across both navigation bars, the five entries have five different
    labels, and the four entries that name a destination name four
    different ones. *)
Theorem navbar_labels_and_destinations_distinct :
  length navbar_entries = 5
  /\ length (omap label navbar_entries) = 5
  /\ NoDup (omap label navbar_entries)
  /\ length (omap destination navbar_entries) = 4
  /\ NoDup (omap destination navbar_entries).
Proof.
  repeat split; apply (bool_decide_unpack _); by vm_compute.
Qed.

(** X6: the stylesheet list is one remote stylesheet followed by eight
    stylesheets of the theme, each under [./mcss/css/] and ending in
    [.css]; no stylesheet is listed twice. *)
Theorem stylesheets_remote_then_local :
  exists font theme,
    items_of STYLESHEETS = Some (font :: theme)
    /\ is_remote font = true
    /\ length theme = 8
    /\ forallb is_local_css theme = true
    /\ existsb is_remote theme = false
    /\ NoDup (omap str_of (font :: theme))
    /\ length (omap str_of (font :: theme)) = 9.
Proof.
  do 2 eexists. split; [reflexivity|].
  repeat split. apply (bool_decide_unpack _). by vm_compute.
Qed.

(** X7: the Discussions entry links to the [discussions] page under the
    project URL given by [MAIN_PROJECT_URL]. *)
Theorem discussions_link_under_project_url :
  exists url,
    config !! "MAIN_PROJECT_URL" = Some (VStr url)
    /\ (config !! "LINKS_NAVBAR2" ≫= fun nav => subscript nav 1 ≫= label)
       = Some (anchor (url +:+ "/discussions") "Discussions").
Proof. eexists. split; reflexivity. Qed.
